(** * Typed gateway client layer: a shallow embedding

    The Python sources embedded here are
    - [clients/http/client.py]                     ([HTTPClient]),
    - [clients/http/gateway/cards/client.py]       ([CardsGatewayHTTPClient]),
    - [clients/http/gateway/documents/client.py]   ([DocumentsGatewayHTTPClient]),
    - [clients/http/gateway/operations/client.py]  ([OperationsGatewayHTTPClient]),
    - [api_client_get_documents.py]                (the workflow helpers).

    A method runs in a state made of the attributes of the handle it is
    called on, the log of what was handed to httpx, and the network behind
    httpx, which answers each exchange that httpx does not refuse;
    exceptions are an explicit outcome.  The scripts
    [httpx_open_deposit_account.py] and [httpx_get_operation_receipt.py]
    come after the client layer. *)

From Stdlib Require Import ZArith Ascii String DecimalString PrimFloat.
From stdpp Require Import base option list.

Local Open Scope string_scope.
Local Open Scope Z_scope.
Local Open Scope list_scope.
Local Set Warnings "-register-all".

(** ** Python values *)

(** What a request dictionary or a decoded JSON body can hold.  A [dict] is
    an association list in insertion order. *)
Inductive value : Type :=
| VNone
| VBool (b : bool)
| VInt (z : Z)
| VFloat (f : float)
| VStr (s : string)
| VList (items : list value)
| VDict (entries : list (string * value)).

Definition dict := list (string * value).


(** [d.get(k)] : the entry stored under [k], if any. *)
Fixpoint dict_get (k : string) (d : dict) : option value :=
  match d with
  | [] => None
  | (k', v) :: d' => if String.eqb k k' then Some v else dict_get k d'
  end.

(** ** [str.rstrip] with a one-character set *)

Fixpoint rstrip (c : ascii) (s : string) : string :=
  match s with
  | EmptyString => EmptyString
  | String a s' =>
      match rstrip c s' with
      | EmptyString => if Ascii.eqb a c then EmptyString else String a EmptyString
      | r => String a r
      end
  end.

(** [s.endswith(c)] for a single character. *)
Fixpoint ends_with (c : ascii) (s : string) : bool :=
  match s with
  | EmptyString => false
  | String a EmptyString => Ascii.eqb a c
  | String _ s' => ends_with c s'
  end.

(** [c * n] : the character repeated. *)
Fixpoint replicate_char (n : nat) (c : ascii) : string :=
  match n with
  | O => EmptyString
  | S n' => String c (replicate_char n' c)
  end.

(** ** The handle: [HTTPClient] and its subclasses *)

(** The attributes [__init__] assigns; no other attribute is ever set. *)
Record HTTPClient : Type := mkHTTPClient {
  base_url : string;
  timeout : float
}.

(** The default of the [timeout] parameter, [10.0]. *)
Definition default_timeout : float := 10%float.

(** [HTTPClient.__init__(self, base_url, timeout=10.0)]: the attribute
    values it stores.  [None] for [timeout_arg] is the call without that
    argument. *)
Definition HTTPClient_init (base_url_arg : string) (timeout_arg : option float)
  : HTTPClient :=
  {| base_url := rstrip "/"%char base_url_arg;
     timeout := default default_timeout timeout_arg |}.

(** The three subclasses only call [super().__init__(base_url, timeout)],
    with their own [timeout=10.0] default. *)
Definition CardsGatewayHTTPClient_init (base_url_arg : string)
    (timeout_arg : option float) : HTTPClient :=
  HTTPClient_init base_url_arg (Some (default default_timeout timeout_arg)).

Definition DocumentsGatewayHTTPClient_init (base_url_arg : string)
    (timeout_arg : option float) : HTTPClient :=
  HTTPClient_init base_url_arg (Some (default default_timeout timeout_arg)).

Definition OperationsGatewayHTTPClient_init (base_url_arg : string)
    (timeout_arg : option float) : HTTPClient :=
  HTTPClient_init base_url_arg (Some (default default_timeout timeout_arg)).

(** ** What is handed to httpx, and what comes back *)

Inductive Method : Type := GET | POST.

(** Values allowed in a query-parameter dictionary (httpx's
    [PrimitiveData]; no query field of this layer is a float). *)
Inductive primitive : Type :=
| PNone
| PBool (b : bool)
| PInt (z : Z)
| PStr (s : string).

Definition query := list (string * primitive).

(** The keyword arguments of [client.get(...)] / [client.post(...)]. *)
Record Request : Type := mkRequest {
  method : Method;
  url : string;
  params : option query;
  json : option dict;
  headers : list (string * string)
}.

(** The body of a response: a JSON text, given by the value it denotes, a
    text that is not JSON, or bytes that are not a text at all (not UTF-8,
    UTF-16 or UTF-32). *)
Inductive Content : Type :=
| Json (v : value)
| NotJson (raw : string)
| Undecodable (raw : string).

(** [httpx.Response], as far as the layer looks at it. *)
Record Response : Type := mkResponse {
  status_code : Z;
  content : Content
}.

(** [httpx.Client(base_url=..., timeout=...)] *)
Record Client : Type := mkClient {
  client_base_url : string;
  client_timeout : float
}.

(** One use of httpx: the client that is constructed and the arguments of
    the request call made on it.  An exchange is what the code hands to
    httpx; httpx may refuse it before anything goes to the network, the
    base URL when the client is constructed, the URL and the body when the
    request is built. *)
Record Exchange : Type := mkExchange {
  via : Client;
  request : Request
}.

(** Why httpx refuses an exchange without sending anything: a URL it does
    not accept, or a JSON body it cannot encode. *)
Inductive Refusal : Type :=
| BadURL
| BadJSON.

(** What comes of an exchange: a response (of any status), no response
    (connection refused, DNS failure, timeout: the request was sent, or
    tried, and httpx raised instead of returning), or a refusal by httpx
    before anything is sent. *)
Inductive Reply : Type :=
| Answered (r : Response)
| Failed (why : string)
| Refused (why : Refusal).

(** ** Exceptions and the call monad *)

(** [httpx.TransportError], [httpx.HTTPStatusError] (the spec's StatusError),
    [json.JSONDecodeError] and [UnicodeDecodeError] (the spec's DecodeError),
    and the two exceptions of a refusal: [httpx.InvalidURL], and the
    [ValueError] of the JSON encoder. *)
Inductive Error : Type :=
| TransportError (why : string)
| HTTPStatusError (response : Response)
| JSONDecodeError (raw : string)
| UnicodeDecodeError (raw : string)
| InvalidURL
| ValueError.

Inductive Outcome (A : Type) : Type :=
| Return (a : A)
| Raise (e : Error).
Arguments Return {A} a.
Arguments Raise {A} e.

(** The state a method runs in: the attributes of [self], the log of the
    exchanges handed to httpx so far (oldest first), and the network, which
    decides what comes of the newest exchange of a log that httpx sends,
    knowing the whole history. *)
Record State : Type := mkState {
  self : HTTPClient;
  wire : list Exchange;
  network : list Exchange -> Reply
}.

(** A non-printable ASCII character. *)
Definition is_control (a : ascii) : bool :=
  (N_of_ascii a <? 32)%N || (N_of_ascii a =? 127)%N.

Fixpoint has_control (s : string) : bool :=
  match s with
  | EmptyString => false
  | String a s' => is_control a || has_control s'
  end.

(** A value without a float that is out of range for JSON: no infinity
    and no NaN. *)
Fixpoint finite (v : value) : bool :=
  match v with
  | VFloat f => PrimFloat.is_finite f
  | VList items => forallb finite items
  | VDict entries => forallb (fun kv => finite (snd kv)) entries
  | _ => true
  end.

(** [json.dumps(d, allow_nan=False)] succeeds. *)
Definition encodable (d : dict) : bool := forallb (fun kv => finite (snd kv)) d.

(** The checks of httpx that are decided here: the base URL of the client
    and the URL of the request must be free of non-printable ASCII
    characters, or [InvalidURL] is raised; then a JSON body must be
    encodable, or the encoder raises [ValueError].  httpx checks more of a
    URL (its length, its port, its host); those checks are left to the
    network of a state, which may answer [Refused BadURL] for them. *)
Definition httpx_refuses (x : Exchange) : option Refusal :=
  if has_control (client_base_url (via x)) || has_control (url (request x))
  then Some BadURL
  else
    match json (request x) with
    | Some d => if encodable d then None else Some BadJSON
    | None => None
    end.

(** httpx in front of a network: the newest exchange of a log is refused
    when it fails the checks, and goes to the network otherwise.  The URL
    is checked before the body is encoded, so an exchange whose body cannot
    be encoded is refused for its URL when that is refused too. *)
Definition httpx (net_ : list Exchange -> Reply) : list Exchange -> Reply :=
  fun log =>
    match last log with
    | Some x =>
        match httpx_refuses x with
        | Some BadURL => Refused BadURL
        | Some BadJSON =>
            match net_ log with
            | Refused BadURL => Refused BadURL
            | _ => Refused BadJSON
            end
        | None => net_ log
        end
    | None => net_ log
    end.

(** The gateway as the code meets it, through httpx. *)
Definition gateway (st : State) : list Exchange -> Reply := httpx (network st).

(** The exception a refusal raises. *)
Definition refusal_error (why : Refusal) : Error :=
  match why with
  | BadURL => InvalidURL
  | BadJSON => ValueError
  end.

Definition M (A : Type) : Type := State -> Outcome A * State.

Definition ret {A : Type} (a : A) : M A := fun st => (Return a, st).

Definition raise {A : Type} (e : Error) : M A := fun st => (Raise e, st).

Definition bind {A B : Type} (m : M A) (k : A -> M B) : M B :=
  fun st =>
    match m st with
    | (Return a, st') => k a st'
    | (Raise e, st') => (Raise e, st')
    end.

Notation "'let*' x ':=' m 'in' k" := (bind m (fun x => k))
  (at level 10, x name, m at level 100, k at level 200).

(** ** httpx, as used by the layer *)

(** [client.request(...)] on a client just constructed: one exchange is
    handed to httpx, and what comes of it is the result.  A response is
    returned whatever its status; no response raises [TransportError]; a
    refusal raises [InvalidURL] or [ValueError] and nothing is sent. *)
Definition Client_request (client : Client) (r : Request) : M Response :=
  fun st =>
    let log := wire st ++ [mkExchange client r] in
    let st' := mkState (self st) log (network st) in
    match gateway st log with
    | Answered resp => (Return resp, st')
    | Failed why => (Raise (TransportError why), st')
    | Refused why => (Raise (refusal_error why), st')
    end.

(** [client.get(url=, params=, headers=)] *)
Definition Client_get (client : Client) (url : string) (params : option query)
    (headers : list (string * string)) : M Response :=
  Client_request client (mkRequest GET url params None headers).

(** [client.post(url=, json=, headers=)] *)
Definition Client_post (client : Client) (url : string) (json : dict)
    (headers : list (string * string)) : M Response :=
  Client_request client (mkRequest POST url None (Some json) headers).

(** [response.is_success]: the status code is in 200..299. *)
Definition is_success (r : Response) : bool :=
  (200 <=? status_code r) && (status_code r <=? 299).

(** [response.raise_for_status()]: any status outside 2xx raises, and the
    exception carries the response. *)
Definition raise_for_status (r : Response) : M Response :=
  if is_success r then ret r else raise (HTTPStatusError r).

(** [response.json()] *)
Definition Response_json (r : Response) : M value :=
  match content r with
  | Json v => ret v
  | NotJson raw => raise (JSONDecodeError raw)
  | Undecodable raw => raise (UnicodeDecodeError raw)
  end.

(** [str(n)] for an [int]. *)
Definition str_of_int (z : Z) : string := NilZero.string_of_int (Z.to_int z).

(** httpx's [primitive_value_to_str], which [QueryParams] applies to every
    value of a parameter dictionary: booleans in JSON spelling, [None] as
    the empty text, anything else through [str]. *)
Definition primitive_value_to_str (v : primitive) : string :=
  match v with
  | PBool true => "true"
  | PBool false => "false"
  | PNone => ""
  | PInt z => str_of_int z
  | PStr s => s
  end.

(** [httpx.QueryParams(d).multi_items()] for a dictionary of primitives:
    one [(key, text)] pair per entry, in order. *)
Definition QueryParams (d : query) : list (string * string) :=
  map (fun kv => (fst kv, primitive_value_to_str (snd kv))) d.

(** The query pairs an exchange carries. *)
Definition query_items (r : Request) : list (string * string) :=
  match params r with
  | Some d => QueryParams d
  | None => []
  end.

(** [json.dumps]'s view of a value as a JSON document. *)
Inductive json_doc : Type :=
| JNull
| JTrue
| JFalse
| JInt (z : Z)
| JFloat (f : float)
| JString (s : string)
| JArray (items : list json_doc)
| JObject (members : list (string * json_doc)).

Fixpoint dumps (v : value) : json_doc :=
  match v with
  | VNone => JNull
  | VBool true => JTrue
  | VBool false => JFalse
  | VInt z => JInt z
  | VFloat f => JFloat f
  | VStr s => JString s
  | VList items => JArray (map dumps items)
  | VDict entries => JObject (map (fun kv => (fst kv, dumps (snd kv))) entries)
  end.

(** The members of the JSON object a request sends as its body. *)
Definition body_members (r : Request) : list (string * json_doc) :=
  match json r with
  | Some d => map (fun kv => (fst kv, dumps (snd kv))) d
  | None => []
  end.


(** ** [HTTPClient._get_client] and the [with] block *)

(** [self._get_client()]: a fresh [httpx.Client] built from the two
    attributes of [self]. *)
Definition _get_client : M Client :=
  fun st => (Return (mkClient (base_url (self st)) (timeout (self st))), st).

(** [with cm as client: body].  Entering and leaving an [httpx.Client]
    exchanges nothing with the gateway. *)
Definition with_ {A : Type} (cm : M Client) (body : Client -> M A) : M A :=
  let* client := cm in body client.

(** The two header dictionaries the layer uses. *)
Definition accept_json : list (string * string) :=
  [("Accept", "application/json")].

Definition content_type_and_accept_json : list (string * string) :=
  [("Content-Type", "application/json"); ("Accept", "application/json")].

(** ** Request contracts *)

(** A [TypedDict] declaration: the keys the docstrings call mandatory and
    the keys annotated [Optional[...]]. *)
Record TypedDict : Type := mkTypedDict {
  required : list string;
  optional : list string
}.



Module Cards.



Definition issue_virtual_card_api (request : dict) : M Response :=
  let endpoint := "/api/v1/cards/issue-virtual-card" in
  with_ _get_client (fun client =>
    let* response :=
      Client_post client endpoint request content_type_and_accept_json in
    ret response).

Definition issue_physical_card_api (request : dict) : M Response :=
  let endpoint := "/api/v1/cards/issue-physical-card" in
  with_ _get_client (fun client =>
    let* response :=
      Client_post client endpoint request content_type_and_accept_json in
    ret response).

End Cards.

Module Documents.

(** [DocumentDict]: a dictionary with string entries [url] and
    [document]. *)
Definition is_DocumentDict (v : value) : bool :=
  match v with
  | VDict d =>
      match dict_get "url" d, dict_get "document" d with
      | Some (VStr _), Some (VStr _) => true
      | _, _ => false
      end
  | _ => false
  end.

(** [GetTariffDocumentResponseDict] *)
Definition is_GetTariffDocumentResponseDict (v : value) : bool :=
  match v with
  | VDict d =>
      match dict_get "tariff" d with
      | Some doc => is_DocumentDict doc
      | None => false
      end
  | _ => false
  end.

(** [GetContractDocumentResponseDict] *)
Definition is_GetContractDocumentResponseDict (v : value) : bool :=
  match v with
  | VDict d =>
      match dict_get "contract" d with
      | Some doc => is_DocumentDict doc
      | None => false
      end
  | _ => false
  end.

Definition get_tariff_document_api (account_id : string) : M Response :=
  let endpoint := "/api/v1/documents/tariff-document" in
  let params := [("accountId", PStr account_id)] in
  with_ _get_client (fun client =>
    let* response := Client_get client endpoint (Some params) accept_json in
    ret response).

Definition get_contract_document_api (account_id : string) : M Response :=
  let endpoint := "/api/v1/documents/contract-document" in
  let params := [("accountId", PStr account_id)] in
  with_ _get_client (fun client =>
    let* response := Client_get client endpoint (Some params) accept_json in
    ret response).

Definition get_tariff_document (account_id : string) : M value :=
  let* response := get_tariff_document_api account_id in
  let* _ := raise_for_status response in
  Response_json response.

Definition get_contract_document (account_id : string) : M value :=
  let* response := get_contract_document_api account_id in
  let* _ := raise_for_status response in
  Response_json response.

End Documents.

Module Operations.

Definition GetOperationsQuery : TypedDict :=
  {| required := ["accountId"];
     optional := ["limit"; "offset"; "startDate"; "endDate"; "operationType"] |}.

Definition GetOperationsSummaryQuery : TypedDict :=
  {| required := ["accountId"];
     optional := ["startDate"; "endDate"; "groupBy"] |}.








Definition get_operation_api (operation_id : string) : M Response :=
  let endpoint := ("/api/v1/operations/" ++ operation_id)%string in
  with_ _get_client (fun client =>
    let* response := Client_get client endpoint None accept_json in
    ret response).

Definition get_operation_receipt_api (operation_id : string) : M Response :=
  let endpoint := ("/api/v1/operations/operation-receipt/" ++ operation_id)%string in
  with_ _get_client (fun client =>
    let* response := Client_get client endpoint None accept_json in
    ret response).

Definition get_operations_api (query_params : query) : M Response :=
  let endpoint := "/api/v1/operations" in
  with_ _get_client (fun client =>
    let* response := Client_get client endpoint (Some query_params) accept_json in
    ret response).

Definition get_operations_summary_api (query_params : query) : M Response :=
  let endpoint := "/api/v1/operations/operations-summary" in
  with_ _get_client (fun client =>
    let* response := Client_get client endpoint (Some query_params) accept_json in
    ret response).

(** The seven [make_*_operation_api] methods differ in the endpoint
    only. *)
Definition make_operation_api (endpoint : string) (request : dict) : M Response :=
  with_ _get_client (fun client =>
    let* response :=
      Client_post client endpoint request content_type_and_accept_json in
    ret response).

Definition make_fee_operation_api (request : dict) : M Response :=
  make_operation_api "/api/v1/operations/make-fee-operation" request.

Definition make_top_up_operation_api (request : dict) : M Response :=
  make_operation_api "/api/v1/operations/make-top-up-operation" request.

Definition make_cashback_operation_api (request : dict) : M Response :=
  make_operation_api "/api/v1/operations/make-cashback-operation" request.

Definition make_transfer_operation_api (request : dict) : M Response :=
  make_operation_api "/api/v1/operations/make-transfer-operation" request.

Definition make_purchase_operation_api (request : dict) : M Response :=
  make_operation_api "/api/v1/operations/make-purchase-operation" request.

Definition make_bill_payment_operation_api (request : dict) : M Response :=
  make_operation_api "/api/v1/operations/make-bill-payment-operation" request.

Definition make_cash_withdrawal_operation_api (request : dict) : M Response :=
  make_operation_api "/api/v1/operations/make-cash-withdrawal-operation" request.

End Operations.

(** ** The method surface, enumerated *)

(** The nine write endpoints. *)
Inductive WriteEndpoint : Type :=
| issue_virtual_card
| issue_physical_card
| make_fee_operation
| make_top_up_operation
| make_cashback_operation
| make_transfer_operation
| make_purchase_operation
| make_bill_payment_operation
| make_cash_withdrawal_operation.

(** The method behind each write endpoint. *)
Definition write_api (e : WriteEndpoint) : dict -> M Response :=
  match e with
  | issue_virtual_card => Cards.issue_virtual_card_api
  | issue_physical_card => Cards.issue_physical_card_api
  | make_fee_operation => Operations.make_fee_operation_api
  | make_top_up_operation => Operations.make_top_up_operation_api
  | make_cashback_operation => Operations.make_cashback_operation_api
  | make_transfer_operation => Operations.make_transfer_operation_api
  | make_purchase_operation => Operations.make_purchase_operation_api
  | make_bill_payment_operation => Operations.make_bill_payment_operation_api
  | make_cash_withdrawal_operation => Operations.make_cash_withdrawal_operation_api
  end.


(** The two read-with-filter operations. *)
Inductive FilterEndpoint : Type :=
| get_operations
| get_operations_summary.

Definition filter_api (e : FilterEndpoint) : query -> M Response :=
  match e with
  | get_operations => Operations.get_operations_api
  | get_operations_summary => Operations.get_operations_summary_api
  end.

(** A call of a read ([GET]) [*_api] method, with its argument. *)
Inductive ReadCall : Type :=
| get_tariff_document_api_ (account_id : string)
| get_contract_document_api_ (account_id : string)
| get_operation_api_ (operation_id : string)
| get_operation_receipt_api_ (operation_id : string)
| filter_api_ (e : FilterEndpoint) (query_params : query).

Definition read_api (c : ReadCall) : M Response :=
  match c with
  | get_tariff_document_api_ account_id => Documents.get_tariff_document_api account_id
  | get_contract_document_api_ account_id => Documents.get_contract_document_api account_id
  | get_operation_api_ operation_id => Operations.get_operation_api operation_id
  | get_operation_receipt_api_ operation_id => Operations.get_operation_receipt_api operation_id
  | filter_api_ e query_params => filter_api e query_params
  end.

(** A call of any low-level method. *)
Inductive LowLevelCall : Type :=
| read_ (c : ReadCall)
| write_ (e : WriteEndpoint) (request : dict).

Definition low_level (c : LowLevelCall) : M Response :=
  match c with
  | read_ c => read_api c
  | write_ e request => write_api e request
  end.

(** The two high-level document methods. *)
Inductive HighLevel : Type :=
| tariff
| contract_.

Definition high_level (h : HighLevel) : string -> M value :=
  match h with
  | tariff => Documents.get_tariff_document
  | contract_ => Documents.get_contract_document
  end.

(** The envelope each one is annotated to return. *)
Definition envelope (h : HighLevel) : value -> bool :=
  match h with
  | tariff => Documents.is_GetTariffDocumentResponseDict
  | contract_ => Documents.is_GetContractDocumentResponseDict
  end.

(** The exchanges a computation hands to httpx when run from [st]. *)
Definition issued {A : Type} (m : M A) (st : State) : list Exchange :=
  drop (length (wire st)) (wire (snd (m st))).

(** What the caller gets from a reply when nothing interprets it. *)
Definition raw (r : Reply) : Outcome Response :=
  match r with
  | Answered resp => Return resp
  | Failed why => Raise (TransportError why)
  | Refused why => Raise (refusal_error why)
  end.

(** The [httpx.Client] that [self] hands out. *)
Definition client_of (c : HTTPClient) : Client :=
  mkClient (base_url c) (timeout c).

(** The state after one exchange [x]. *)
Definition after (x : Exchange) (st : State) : State :=
  mkState (self st) (wire st ++ [x]) (network st).

(** The exchange [self] issues for the request arguments [r]. *)
Definition exchange (st : State) (r : Request) : Exchange :=
  mkExchange (client_of (self st)) r.

(** An exchange carries the header [name: val]. *)
Definition sends (name val : string) (x : Exchange) : Prop :=
  In (name, val) (headers (request x)).

(** What the status check and the decoding make of a reply. *)
Definition decoded (r : Reply) : Outcome value :=
  match r with
  | Answered resp =>
      if is_success resp then
        match content resp with
        | Json v => Return v
        | NotJson text => Raise (JSONDecodeError text)
        | Undecodable bytes => Raise (UnicodeDecodeError bytes)
        end
      else Raise (HTTPStatusError resp)
  | Failed why => Raise (TransportError why)
  | Refused why => Raise (refusal_error why)
  end.


(** ** Populated and absent fields *)




(** A query field is given when the record has it with a value other than
    [None]. *)
Definition given (k : string) (q : query) : bool :=
  existsb (fun kv => String.eqb k (fst kv)
                     && match snd kv with PNone => false | _ => true end) q.


(** An operations query whose optional [limit] is absent. *)
Definition operations_query_no_limit : query :=
  [("accountId", PStr "A1"); ("limit", PNone)].

(** A summary query whose optional [groupBy] is absent. *)
Definition summary_query_no_group : query :=
  [("accountId", PStr "A1"); ("groupBy", PNone)].

(** ** Scenarios *)

(** A handle as the workflow script builds it. *)
Definition localhost : HTTPClient := HTTPClient_init "http://localhost:8080" None.

(** A network that gives every exchange the same reply. *)
Definition always (r : Reply) : list Exchange -> Reply := fun _ => r.

(** A network that gives the first exchange one reply and every later one
    another. *)
Definition first_then (first later : Reply) : list Exchange -> Reply :=
  fun log =>
    match log with
    | [_] => first
    | _ => later
    end.

(** [self] before any call, in front of network [g]. *)
Definition fresh (c : HTTPClient) (g : list Exchange -> Reply) : State :=
  mkState c [] g.

Definition tariff_body : value :=
  VDict [("tariff", VDict [("url", VStr "http://localhost:8080/tariff.pdf");
                           ("document", VStr "Tariff")])].

Definition ok_tariff : Response := mkResponse 200 (Json tariff_body).

Definition ok_receipt : Response :=
  mkResponse 200 (Json (VDict [("receipt", VDict [("url", VStr "http://localhost:8080/receipt.pdf")])])).

Definition not_found : Response :=
  mkResponse 404 (Json (VDict [("detail", VStr "Not Found")])).

(** A 200 whose body is JSON but not an envelope. *)
Definition ok_empty_object : Response := mkResponse 200 (Json (VDict [])).

(** A 200 whose body is not JSON. *)
Definition ok_html : Response := mkResponse 200 (NotJson "<html></html>").

(** A 200 whose body is the single byte 0xFF, which is no text. *)
Definition ok_bytes : Response :=
  mkResponse 200 (Undecodable (String "255"%char EmptyString)).

(** An operation identifier with a line feed in it. *)
Definition id_with_line_feed : string := String "010"%char "op-1".

(** A purchase request whose amount is infinite. *)
Definition purchase_request_infinite : dict :=
  [("status", VStr "IN_PROGRESS"); ("amount", VFloat infinity);
   ("cardId", VStr "C1"); ("accountId", VStr "A1");
   ("merchantId", VStr "M1"); ("merchantName", VStr "Taxi"); ("category", VStr "taxi")].

(** * The scripts

    [httpx_open_deposit_account.py], [httpx_get_operation_receipt.py] and
    the document helpers of [api_client_get_documents.py] are module-level
    code: they see more exceptions than the client layer raises, and they
    print or log. *)

(** A subscript [v[k]]: a string key or an integer position. *)
Inductive subscript : Type :=
| Key (k : string)
| Index (i : Z).

(** The exceptions a script can meet.  [SystemExit] is the only one that is
    not an [Exception]. *)
Inductive Exception : Type :=
| Httpx (e : Error)
| KeyError (k : subscript)
| IndexError
| TypeError
| SystemExit (code : Z).

(** [isinstance(e, Exception)] *)
Definition is_Exception (e : Exception) : bool :=
  match e with
  | SystemExit _ => false
  | _ => true
  end.

Inductive Result (A : Type) : Type :=
| Done (a : A)
| Thrown (e : Exception).
Arguments Done {A} a.
Arguments Thrown {A} e.

(** What a [print] or a logger call interpolates into its text. *)
Inductive Shown : Type :=
| SValue (v : value)
| SInt (z : Z)
| SContent (c : Content)
| SException (e : Exception)
| SExchange (x : Exchange).

(** One [print] or logger call: its text with the places of the
    interpolated values, and those values.  The rendering of the values is
    not modelled. *)
Inductive Level : Type := INFO | ERROR.

Inductive Line : Type :=
| Say (text : string) (args : list Shown)
| Log (level : Level) (text : string) (args : list Shown).

(** A running script: the state of the client layer (what was handed to
    httpx, and the network), and what has been written to standard output,
    oldest first. *)
Record Process : Type := mkProcess {
  net : State;
  console : list Line
}.

Definition Script (A : Type) : Type := Process -> Result A * Process.

Definition sret {A : Type} (a : A) : Script A := fun p => (Done a, p).

Definition throw {A : Type} (e : Exception) : Script A := fun p => (Thrown e, p).

Definition sbind {A B : Type} (m : Script A) (k : A -> Script B) : Script B :=
  fun p =>
    match m p with
    | (Done a, p') => k a p'
    | (Thrown e, p') => (Thrown e, p')
    end.

Notation "'let+' x ':=' m 'in' k" := (sbind m (fun x => k))
  (at level 10, x name, m at level 100, k at level 200).

(** A computation of the client layer, run by a script with no handle of
    its own in play: [self] stays what it is. *)
Definition lift {A : Type} (m : M A) : Script A :=
  fun p =>
    match m (net p) with
    | (Return a, st) => (Done a, mkProcess st (console p))
    | (Raise e, st) => (Thrown (Httpx e), mkProcess st (console p))
    end.

(** The record httpx's own logger writes, at level INFO, for each response
    it receives. *)
Definition httpx_record (x : Exchange) (resp : Response) : Line :=
  Log INFO "HTTP Request: {method} {url} {http_version} {status_code} {reason_phrase}"
    [SExchange x; SInt (status_code resp)].

(** The records httpx logs for the exchanges [xs] handed to it after
    [log]: one for each that is answered, none for one that it refuses.
    (httpx writes the record when the head of a response has arrived, so
    that a response that breaks off after that leaves a record as well;
    a reply of that kind is not told apart from other failures, and no
    statement below says what is logged for a failed exchange.) *)
Fixpoint httpx_log (g : list Exchange -> Reply) (log xs : list Exchange)
  : list Line :=
  match xs with
  | [] => []
  | x :: xs' =>
      match g (log ++ [x]) with
      | Answered resp => httpx_record x resp :: httpx_log g (log ++ [x]) xs'
      | _ => httpx_log g (log ++ [x]) xs'
      end
  end.

(** [client.method(...)] in [api_client_get_documents.py]: the method runs
    with [self] bound to [client].  That script sets the root logger to
    INFO on standard output, so the records of httpx's logger are written
    there as the method runs. *)
Definition call {A : Type} (client : HTTPClient) (m : M A) : Script A :=
  fun p =>
    let st := mkState client (wire (net p)) (network (net p)) in
    match m st with
    | (o, st') =>
        (match o with
         | Return a => Done a
         | Raise e => Thrown (Httpx e)
         end,
         mkProcess (mkState (self (net p)) (wire st') (network st'))
           (console p
            ++ httpx_log (gateway st) (wire st) (drop (length (wire st)) (wire st'))))
    end.

(** [print(...)] *)
Definition print (l : Line) : Script unit :=
  fun p => (Done tt, mkProcess (net p) (console p ++ [l])).

(** [try: body / except ...: handler].  [handler e] is the clause that
    catches [e], if one does; what [body] did before raising stays done. *)
Definition try_except {A : Type} (body : Script A)
    (handler : Exception -> option (Script A)) : Script A :=
  fun p =>
    match body p with
    | (Done a, p') => (Done a, p')
    | (Thrown e, p') =>
        match handler e with
        | Some h => h p'
        | None => (Thrown e, p')
        end
    end.

(** The code points of a UTF-8 text: each leading byte with the
    continuation bytes that follow it. *)
Definition is_continuation (a : ascii) : bool :=
  match a with
  | Ascii _ _ _ _ _ _ false true => true
  | _ => false
  end.

Fixpoint code_points (s : string) : list string :=
  match s with
  | EmptyString => []
  | String a s' =>
      match s' with
      | String b _ =>
          if is_continuation b then
            match code_points s' with
            | g :: gs => String a g :: gs
            | [] => [String a EmptyString]
            end
          else String a EmptyString :: code_points s'
      | EmptyString => [String a EmptyString]
      end
  end.

(** The position a sequence of length [len] gives to index [i], counting
    from the end when [i] is negative. *)
Definition position (i : Z) (len : nat) : option nat :=
  if (0 <=? i) && (i <? Z.of_nat len) then Some (Z.to_nat i)
  else if (- Z.of_nat len <=? i) && (i <? 0) then Some (Z.to_nat (Z.of_nat len + i))
  else None.

(** [v[s]] for a decoded JSON value. *)
Definition getitem (v : value) (s : subscript) : Result value :=
  match v, s with
  | VDict d, Key k =>
      match dict_get k d with
      | Some x => Done x
      | None => Thrown (KeyError s)
      end
  | VDict _, Index _ => Thrown (KeyError s)
  | VList l, Index i =>
      match position i (length l) with
      | Some n =>
          match l !! n with
          | Some x => Done x
          | None => Thrown IndexError
          end
      | None => Thrown IndexError
      end
  | VStr t, Index i =>
      match position i (length (code_points t)) with
      | Some n =>
          match code_points t !! n with
          | Some c => Done (VStr c)
          | None => Thrown IndexError
          end
      | None => Thrown IndexError
      end
  | VList _, Key _ | VStr _, Key _ => Thrown TypeError
  | _, _ => Thrown TypeError
  end.

Definition subscr (v : value) (s : subscript) : Script value :=
  fun p => (getitem v s, p).

(** [f"{v}"] for a decoded JSON value.  [repr_] stands for Python's text
    of a float, a list or a dict, which is not modelled. *)
Definition format_value (repr_ : value -> string) (v : value) : string :=
  match v with
  | VStr s => s
  | VInt z => str_of_int z
  | VNone => "None"
  | VBool true => "True"
  | VBool false => "False"
  | _ => repr_ v
  end.

(** [httpx.post(url, json=, timeout=)]: a client of its own, without base
    URL and without extra headers. *)
Definition httpx_post (url : string) (json : dict) (timeout : float)
  : Script Response :=
  lift (Client_request (mkClient "" timeout) (mkRequest POST url None (Some json) [])).

(** [httpx.get(url, timeout=)] *)
Definition httpx_get (url : string) (timeout : float) : Script Response :=
  lift (Client_request (mkClient "" timeout) (mkRequest GET url None None [])).

(** The exchanges a script hands to httpx when run from [p]. *)
Definition sent {A : Type} (s : Script A) (p : Process) : list Exchange :=
  drop (length (wire (net p))) (wire (net (snd (s p)))).

(** The lines a script prints when run from [p]. *)
Definition printed {A : Type} (s : Script A) (p : Process) : list Line :=
  drop (length (console p)) (console (snd (s p))).

(** A network that answers the n-th exchange with the n-th reply of a list,
    and stops answering after that. *)
Definition scripted (replies : list Reply) : list Exchange -> Reply :=
  fun log =>
    match replies !! (length log - 1)%nat with
    | Some r => r
    | None => Failed "connection refused"
    end.

(** A script started in front of network [g]. *)
Definition start (g : list Exchange -> Reply) : Process :=
  mkProcess (fresh localhost g) [].

(** [resp.raise_for_status()] followed by [resp.json()], as a script sees
    them. *)
Definition checked (resp : Response) : Result value :=
  if is_success resp then
    match content resp with
    | Json v => Done v
    | NotJson text => Thrown (Httpx (JSONDecodeError text))
    | Undecodable bytes => Thrown (Httpx (UnicodeDecodeError bytes))
    end
  else Thrown (Httpx (HTTPStatusError resp)).

(** What a script sees of a plain [httpx] call. *)
Definition received (r : Reply) : Result Response :=
  match r with
  | Answered resp => Done resp
  | Failed why => Thrown (Httpx (TransportError why))
  | Refused why => Thrown (Httpx (refusal_error why))
  end.

(** The exchange of [httpx.post(url, json=json, timeout=10)]. *)
Definition posted (url : string) (json : dict) : Exchange :=
  mkExchange (mkClient "" 10%float) (mkRequest POST url None (Some json) []).

(** The exchange of [httpx.get(url, timeout=10)]. *)
Definition got (url : string) : Exchange :=
  mkExchange (mkClient "" 10%float) (mkRequest GET url None None []).

Local Set Warnings "-inexact-float".

Module OpenDepositAccount.

Definition BASE_URL : string := "http://localhost:8003".

(** [create_user()]; [now] is [int(time.time())]. *)
Definition create_user (now : Z) : Script value :=
  let email := ("user_" ++ str_of_int now ++ "@example.com")%string in
  let payload : dict :=
    [("email", VStr email);
     ("firstName", VStr "Test");
     ("lastName", VStr "User");
     ("phone", VStr "+79991234567")] in
  let+ resp := httpx_post (BASE_URL ++ "/api/v1/users")%string payload 10%float in
  let+ _ := lift (raise_for_status resp) in
  let+ user_data := lift (Response_json resp) in
  subscr user_data (Key "id").



End OpenDepositAccount.

Module GetOperationReceipt.

Definition BASE_URL : string := "http://localhost:8003".

(** [run_workflow()]; [now] is [int(time.time())]. *)
Definition run_workflow (repr_ : value -> string) (now : Z) : Script unit :=
  let email := ("user_" ++ str_of_int now ++ "@bank.com")%string in
  let+ user_resp :=
    httpx_post (BASE_URL ++ "/api/v1/users")%string
      [("email", VStr email); ("firstName", VStr "Ivan"); ("lastName", VStr "Petrov")]
      10%float in
  let+ _ := lift (raise_for_status user_resp) in
  let+ user_json := lift (Response_json user_resp) in
  let+ user_id := subscr user_json (Key "id") in
  let+ _ := print (Say "User created: {user_id}" [SValue user_id]) in
  let+ credit_resp :=
    httpx_post (BASE_URL ++ "/api/v1/accounts/open-credit-card-account")%string
      [("userId", user_id); ("creditLimit", VInt 50000); ("currency", VStr "RUB")]
      10%float in
  let+ _ := lift (raise_for_status credit_resp) in
  let+ credit_data := lift (Response_json credit_resp) in
  let+ account := subscr credit_data (Key "account") in
  let+ account_id := subscr account (Key "id") in
  let+ cards := subscr credit_data (Key "cards") in
  let+ card := subscr cards (Index 0) in
  let+ card_id := subscr card (Key "id") in
  let+ _ := print (Say "Account: {account_id}, Card: {card_id}"
                     [SValue account_id; SValue card_id]) in
  let+ purchase_resp :=
    httpx_post (BASE_URL ++ "/api/v1/operations/make-purchase-operation")%string
      [("status", VStr "IN_PROGRESS");
       ("amount", VFloat 77.99%float);
       ("category", VStr "taxi");
       ("cardId", card_id);
       ("accountId", account_id)]
      10%float in
  let+ _ := lift (raise_for_status purchase_resp) in
  let+ purchase_json := lift (Response_json purchase_resp) in
  let+ operation_id := subscr purchase_json (Key "operationId") in
  let+ _ := print (Say "Purchase operation: {operation_id}" [SValue operation_id]) in
  let+ receipt_resp :=
    httpx_get (BASE_URL ++ "/api/v1/operations/operation-receipt/"
               ++ format_value repr_ operation_id)%string 10%float in
  let+ _ := lift (raise_for_status receipt_resp) in
  let+ receipt_data := lift (Response_json receipt_resp) in
  let+ _ := print (Say "\nStatus: {receipt_resp.status_code}"
                     [SInt (status_code receipt_resp)]) in
  let+ _ := print (Say "Receipt JSON:" []) in
  print (Say "{json.dumps(receipt_data, indent=2, ensure_ascii=False)}"
           [SValue receipt_data]).

(** The [if __name__ == "__main__":] block. *)
Definition dunder_main (repr_ : value -> string) (now : Z) : Script unit :=
  try_except (run_workflow repr_ now)
    (fun e =>
       if is_Exception e then Some (print (Say "Error: {e}" [SException e]))
       else None).

End GetOperationReceipt.

Module GetDocuments.

(** [get_tariff_document(client, account_id)] of
    [api_client_get_documents.py]. *)
Definition get_tariff_document (client : HTTPClient) (account_id : string)
  : Script value :=
  try_except
    (let+ _ := print (Log INFO "Получение документа тарифа для счёта: {account_id}"
                        [SValue (VStr account_id)]) in
     let+ tariff_document := call client (Documents.get_tariff_document account_id) in
     let+ _ := print (Log INFO "Документ тарифа получен: {tariff_document}"
                        [SValue tariff_document]) in
     sret tariff_document)
    (fun e =>
       if is_Exception e then
         Some (let+ _ := print (Log ERROR "Ошибка при получении документа тарифа: {e}"
                                  [SException e]) in
               throw e)
       else None).

(** [get_contract_document(client, account_id)] *)
Definition get_contract_document (client : HTTPClient) (account_id : string)
  : Script value :=
  try_except
    (let+ _ := print (Log INFO "Получение документа контракта для счёта: {account_id}"
                        [SValue (VStr account_id)]) in
     let+ contract_document := call client (Documents.get_contract_document account_id) in
     let+ _ := print (Log INFO "Документ контракта получен: {contract_document}"
                        [SValue contract_document]) in
     sret contract_document)
    (fun e =>
       if is_Exception e then
         Some (let+ _ := print (Log ERROR "Ошибка при получении документа контракта: {e}"
                                  [SException e]) in
               throw e)
       else None).

End GetDocuments.


(** The answer to a user request as the standalone scripts read it: the
    identifier at the top of the body. *)
Definition created_user_flat : Response :=
  mkResponse 201 (Json (VDict [("id", VStr "U1"); ("email", VStr "u@example.com")])).



Definition credit_account_without_cards : Response :=
  mkResponse 201
    (Json (VDict [("account", VDict [("id", VStr "A1")]); ("cards", VList [])])).




(** * Properties *)

(** ** Constructor *)

Lemma rstrip_decompose (c : ascii) (s : string) :
  exists n, s = (rstrip c s ++ replicate_char n c)%string.
Proof.
  induction s as [|a s [n IH]]; simpl.
  - exists 0%nat. reflexivity.
  - destruct (rstrip c s) as [|b r] eqn:E.
    + destruct (Ascii.eqb_spec a c) as [->|Hne].
      * exists (S n). simpl in *. now rewrite IH at 1.
      * exists n. simpl in *. now rewrite IH at 1.
    + exists n. simpl in *. now rewrite IH at 1.
Qed.

Lemma rstrip_not_ends_with (c : ascii) (s : string) :
  ends_with c (rstrip c s) = false.
Proof.
  induction s as [|a s IH]; simpl; [reflexivity|].
  destruct (rstrip c s) as [|b r] eqn:E.
  - destruct (Ascii.eqb a c) eqn:Hac; simpl; [reflexivity|exact Hac].
  - exact IH.
Qed.

Lemma rstrip_replicate_char (c : ascii) (n : nat) :
  rstrip c (replicate_char n c) = EmptyString.
Proof.
  induction n as [|n IH]; simpl; [reflexivity|].
  rewrite IH. now rewrite Ascii.eqb_refl.
Qed.

(** C10. For every [base_url] and optional [timeout], the [HTTPClient]
    constructor stores [base_url] with all trailing slashes removed: the
    argument is the stored text followed by slashes only, the stored text
    does not end with a slash, and an argument made of slashes only is
    stored as the empty string.  Without a [timeout] argument the stored
    timeout is 10.0; a given one is stored as it is.  The Cards, Documents
    and Operations constructors store exactly what [HTTPClient]'s does. *)
Theorem HTTPClient_init_normalizes :
  forall (base_url_arg : string) (timeout_arg : option float),
    let c := HTTPClient_init base_url_arg timeout_arg in
    (exists n, base_url_arg = (base_url c ++ replicate_char n "/")%string)
    /\ ends_with "/" (base_url c) = false
    /\ (forall n t, base_url (HTTPClient_init (replicate_char n "/") t) = "")
    /\ timeout (HTTPClient_init base_url_arg None) = 10%float
    /\ (forall t, timeout (HTTPClient_init base_url_arg (Some t)) = t)
    /\ CardsGatewayHTTPClient_init base_url_arg timeout_arg = c
    /\ DocumentsGatewayHTTPClient_init base_url_arg timeout_arg = c
    /\ OperationsGatewayHTTPClient_init base_url_arg timeout_arg = c.
Proof.
  intros b t c. subst c.
  split; [apply rstrip_decompose|].
  split; [apply rstrip_not_ends_with|].
  split; [intros n t'; apply rstrip_replicate_char|].
  split; [reflexivity|].
  split; [reflexivity|].
  destruct t; repeat split.
Qed.

Example rstrip_inner_slashes_kept :
  rstrip "/" "http://host/api//" = "http://host/api".
Proof. reflexivity. Qed.

Example str_of_int_samples :
  str_of_int 0 = "0" /\ str_of_int 20 = "20" /\ str_of_int (-5) = "-5".
Proof. repeat split. Qed.

Example HTTPClient_init_localhost :
  HTTPClient_init "http://localhost:8080//" None
  = mkHTTPClient "http://localhost:8080" 10%float.
Proof. reflexivity. Qed.

(** ** One round trip *)



Lemma gateway_accepts (st : State) (log : list Exchange) (x : Exchange) :
  httpx_refuses x = None -> gateway st (log ++ [x]) = network st (log ++ [x]).
Proof.
  intros H. unfold gateway, httpx. rewrite last_snoc, H. reflexivity.
Qed.

Lemma Client_request_run (client : Client) (r : Request) (st : State) :
  Client_request client r st
  = (raw (gateway st (wire st ++ [mkExchange client r])),
     after (mkExchange client r) st).
Proof.
  unfold Client_request, after.
  destruct (gateway st (wire st ++ [mkExchange client r])); reflexivity.
Qed.

(** The body shared by every low-level method: open a client, send one
    request, return the response. *)
Lemma round_trip_run (r : Request) (st : State) :
  with_ _get_client
    (fun client => let* response := Client_request client r in ret response) st
  = (raw (gateway st (wire st ++ [exchange st r])), after (exchange st r) st).
Proof.
  unfold with_, bind, _get_client. rewrite Client_request_run.
  unfold exchange, client_of.
  destruct (gateway st _); reflexivity.
Qed.

(** The status check followed by the decoding touches nothing. *)
Lemma check_and_decode_run (resp : Response) (st : State) :
  (let* _ := raise_for_status resp in Response_json resp) st
  = (decoded (Answered resp), st).
Proof.
  unfold bind, raise_for_status, Response_json, ret, raise, decoded.
  destruct (is_success resp); [|reflexivity].
  destruct (content resp); reflexivity.
Qed.

Lemma issued_one {A : Type} (m : M A) (st : State) (o : Outcome A) (x : Exchange) :
  m st = (o, after x st) -> issued m st = [x].
Proof.
  intros E. unfold issued. rewrite E. simpl. apply drop_app_length.
Qed.

(** What each read method hands to httpx; the request arguments do not
    depend on the state. *)
Lemma read_api_run (c : ReadCall) :
  exists r,
    (forall st, read_api c st
                = (raw (gateway st (wire st ++ [exchange st r])),
                   after (exchange st r) st))
    /\ method r = GET /\ json r = None /\ headers r = accept_json.
Proof.
  destruct c as [a|a|o|o|[] q]; eexists;
    (split; [intros st; apply round_trip_run|]); repeat split.
Qed.

(** What each write method hands to httpx. *)
Lemma write_api_run (e : WriteEndpoint) (d : dict) :
  exists r,
    (forall st, write_api e d st
                = (raw (gateway st (wire st ++ [exchange st r])),
                   after (exchange st r) st))
    /\ method r = POST /\ params r = None /\ json r = Some d
    /\ headers r = content_type_and_accept_json.
Proof.
  destruct e; eexists; (split; [intros st; apply round_trip_run|]);
    repeat split.
Qed.

Lemma low_level_run (c : LowLevelCall) :
  exists r, forall st,
    low_level c st
    = (raw (gateway st (wire st ++ [exchange st r])), after (exchange st r) st).
Proof.
  destruct c as [c|e d]; simpl.
  - destruct (read_api_run c) as (r & E & _). eauto.
  - destruct (write_api_run e d) as (r & E & _). eauto.
Qed.

(** A high-level method is its low-level method followed by the status
    check and the decoding. *)
Lemma high_level_run (h : HighLevel) (account_id : string) :
  exists r,
    (forall st, high_level h account_id st
                = (decoded (gateway st (wire st ++ [exchange st r])),
                   after (exchange st r) st))
    /\ method r = GET /\ headers r = accept_json
    /\ params r = Some [("accountId", PStr account_id)].
Proof.
  destruct h;
    [ exists (mkRequest GET "/api/v1/documents/tariff-document"
                (Some [("accountId", PStr account_id)]) None accept_json)
    | exists (mkRequest GET "/api/v1/documents/contract-document"
                (Some [("accountId", PStr account_id)]) None accept_json) ];
    (split;
     [ intros st;
       cbv [high_level Documents.get_tariff_document
            Documents.get_contract_document
            Documents.get_tariff_document_api
            Documents.get_contract_document_api Client_get];
       unfold bind at 1; rewrite round_trip_run; unfold decoded;
       (destruct (gateway st _) as [resp|why|why]; simpl;
        [|reflexivity|reflexivity]);
       unfold bind, raise_for_status, Response_json, ret, raise;
       (destruct (is_success resp); [|reflexivity]);
       destruct (content resp); reflexivity
     | repeat split ]).
Qed.

(** ** Paths *)

(** C7. For every operation identifier, [get_operation_api] issues one GET
    whose path is [/api/v1/operations/] followed by the identifier, and
    [get_operation_receipt_api] one GET whose path is
    [/api/v1/operations/operation-receipt/] followed by the identifier; the
    identifier is put in as it is, without any escaping by the layer. *)
Theorem path_parameter_substituted :
  forall (operation_id : string) (st : State),
    issued (Operations.get_operation_api operation_id) st
    = [exchange st (mkRequest GET ("/api/v1/operations/" ++ operation_id)%string
                      None None accept_json)]
    /\ issued (Operations.get_operation_receipt_api operation_id) st
       = [exchange st
            (mkRequest GET
               ("/api/v1/operations/operation-receipt/" ++ operation_id)%string
               None None accept_json)].
Proof.
  intros operation_id st. split; eapply issued_one; apply round_trip_run.
Qed.

Example get_operation_receipt_api_unescaped :
  map (fun x => url (request x))
    (issued (Operations.get_operation_receipt_api "a b/?c%") (fresh localhost (always (Answered not_found))))
  = ["/api/v1/operations/operation-receipt/a b/?c%"].
Proof. reflexivity. Qed.

(** ** Headers *)

(** C8. Every write method issues one POST carrying both
    [Content-Type: application/json] and [Accept: application/json]; every
    read method, low-level or high-level, issues one GET carrying
    [Accept: application/json]. *)
Theorem json_headers_on_every_request :
  forall st : State,
    (forall e d, exists x,
        issued (write_api e d) st = [x] /\ method (request x) = POST
        /\ sends "Content-Type" "application/json" x
        /\ sends "Accept" "application/json" x)
    /\ (forall c, exists x,
        issued (read_api c) st = [x] /\ method (request x) = GET
        /\ sends "Accept" "application/json" x)
    /\ (forall h account_id, exists x,
        issued (high_level h account_id) st = [x] /\ method (request x) = GET
        /\ sends "Accept" "application/json" x).
Proof.
  intros st. split; [|split].
  - intros e d. destruct (write_api_run e d) as (r & E & Hm & _ & _ & Hh).
    exists (exchange st r). split; [eapply issued_one; apply E|].
    unfold sends. simpl. rewrite Hh. split; [exact Hm|].
    split; [left; reflexivity | right; left; reflexivity].
  - intros c. destruct (read_api_run c) as (r & E & Hm & _ & Hh).
    exists (exchange st r). split; [eapply issued_one; apply E|].
    unfold sends. simpl. rewrite Hh. split; [exact Hm | left; reflexivity].
  - intros h a. destruct (high_level_run h a) as (r & E & Hm & Hh & _).
    exists (exchange st r). split; [eapply issued_one; apply E|].
    unfold sends. simpl. rewrite Hh. split; [exact Hm | left; reflexivity].
Qed.

(** ** Low-level methods *)



(** An identifier with a line feed, and an amount that is infinite: httpx
    refuses, whatever the network would have answered. *)
Example low_level_refused_by_httpx :
  let st := fresh localhost (always (Answered ok_receipt)) in
  fst (Operations.get_operation_api id_with_line_feed st) = Raise InvalidURL
  /\ fst (Operations.make_purchase_operation_api purchase_request_infinite st)
     = Raise ValueError
  /\ fst (Operations.get_operation_api "op-1" st) = Return ok_receipt.
Proof. repeat split. Qed.

(** ** The handle is not touched *)

(** C9. A handle is its base URL and its timeout and nothing else, and no
    method of a resource client, low-level or high-level, changes them.
    Issuing the same read twice puts two identical exchanges on the wire,
    and each result is the gateway's reply to its own exchange: nothing is
    cached, deduplicated or memoized. *)
Theorem handle_stateless_reads_not_memoized :
  (forall c : HTTPClient, c = mkHTTPClient (base_url c) (timeout c))
  /\ (forall c st, self (snd (low_level c st)) = self st)
  /\ (forall h account_id st, self (snd (high_level h account_id st)) = self st)
  /\ (forall c st, exists x,
        issued (read_api c) st = [x]
        /\ issued (read_api c) (snd (read_api c st)) = [x]
        /\ fst (read_api c st) = raw (gateway st (wire st ++ [x]))
        /\ fst (read_api c (snd (read_api c st)))
           = raw (gateway st (wire st ++ [x; x])))
  /\ (forall h account_id st, exists x,
        issued (high_level h account_id) st = [x]
        /\ issued (high_level h account_id) (snd (high_level h account_id st))
           = [x]
        /\ fst (high_level h account_id st)
           = decoded (gateway st (wire st ++ [x]))
        /\ fst (high_level h account_id (snd (high_level h account_id st)))
           = decoded (gateway st (wire st ++ [x; x]))).
Proof.
  split; [intros []; reflexivity|].
  split; [intros c st; destruct (low_level_run c) as (r & E); rewrite E;
          reflexivity|].
  split; [intros h a st; destruct (high_level_run h a) as (r & E & _);
          rewrite E; reflexivity|].
  split.
  - intros c st. destruct (read_api_run c) as (r & E & _).
    exists (exchange st r).
    split; [eapply issued_one; apply E|].
    rewrite (E st). simpl.
    split; [eapply issued_one; rewrite E; reflexivity|].
    split; [reflexivity|].
    rewrite E. simpl. rewrite <- app_assoc. reflexivity.
  - intros h a st. destruct (high_level_run h a) as (r & E & _).
    exists (exchange st r).
    split; [eapply issued_one; apply E|].
    rewrite (E st). simpl.
    split; [eapply issued_one; rewrite E; reflexivity|].
    split; [reflexivity|].
    rewrite E. simpl. rewrite <- app_assoc. reflexivity.
Qed.

(** The same receipt asked for twice, in front of a gateway that knows the
    operation only the first time: the second call reports the second
    answer. *)
Example get_operation_receipt_api_twice :
  let st := fresh localhost (first_then (Answered ok_receipt) (Answered not_found)) in
  let m := Operations.get_operation_receipt_api "op-1" in
  fst (m st) = Return ok_receipt
  /\ fst (m (snd (m st))) = Return not_found
  /\ length (wire (snd (m (snd (m st))))) = 2%nat.
Proof. repeat split. Qed.

(** ** High-level document methods *)

(** The exchange of a high-level document method, and what the method
    makes of the reply to it. *)
Lemma high_level_exchange (h : HighLevel) (account_id : string) (st : State) :
  let x := exchange st
             (mkRequest GET
                match h with
                | tariff => "/api/v1/documents/tariff-document"
                | contract_ => "/api/v1/documents/contract-document"
                end
                (Some [("accountId", PStr account_id)]) None accept_json) in
  high_level h account_id st
  = (decoded (gateway st (wire st ++ [x])), after x st).
Proof.
  destruct h; cbv zeta;
    cbv [high_level Documents.get_tariff_document
         Documents.get_contract_document
         Documents.get_tariff_document_api
         Documents.get_contract_document_api Client_get];
    unfold bind at 1; rewrite round_trip_run;
    (destruct (gateway st _) as [resp|why|why]; cbn [raw decoded];
     [|reflexivity|reflexivity]);
    apply check_and_decode_run.
Qed.

(** C1. For each high-level document method and every account identifier:
    the method hands httpx one GET of its document path with the account
    identifier as [accountId]; when the answer to it is a 2xx response
    whose body is a JSON value of the envelope shape, the method returns
    exactly that value; when the answer is a non-2xx response, the method
    raises [HTTPStatusError] carrying that response, status code included,
    and the exception is the outcome of the call. *)
Theorem high_level_returns_body_or_status_error :
  forall (h : HighLevel) (account_id : string) (st : State),
    let x := exchange st
               (mkRequest GET
                  match h with
                  | tariff => "/api/v1/documents/tariff-document"
                  | contract_ => "/api/v1/documents/contract-document"
                  end
                  (Some [("accountId", PStr account_id)]) None accept_json) in
    issued (high_level h account_id) st = [x]
    /\ forall resp : Response,
        gateway st (wire st ++ [x]) = Answered resp ->
        (forall v, is_success resp = true -> content resp = Json v ->
                   envelope h v = true ->
                   fst (high_level h account_id st) = Return v)
        /\ (is_success resp = false ->
            fst (high_level h account_id st) = Raise (HTTPStatusError resp)).
Proof.
  intros h a st x.
  pose proof (high_level_exchange h a st) as E. cbv zeta in E. fold x in E.
  split; [eapply issued_one; exact E|].
  intros resp Hr. rewrite E, Hr. cbn [fst decoded]. split.
  - intros v -> -> _. reflexivity.
  - intros ->. reflexivity.
Qed.

Lemma high_level_returns_body_or_status_error_witness :
  fst (Documents.get_tariff_document "A1" (fresh localhost (always (Answered ok_tariff))))
  = Return tariff_body
  /\ fst (Documents.get_contract_document "A1" (fresh localhost (always (Answered not_found))))
     = Raise (HTTPStatusError not_found).
Proof.
  split.
  - apply (proj2 (high_level_returns_body_or_status_error tariff "A1"
                    (fresh localhost (always (Answered ok_tariff)))) ok_tariff);
      reflexivity.
  - apply (proj2 (high_level_returns_body_or_status_error contract_ "A1"
                    (fresh localhost (always (Answered not_found)))) not_found);
      reflexivity.
Defined.

(** C4, as the code has it.  For each high-level document method, with the
    one GET it hands to httpx: when the answer is a 2xx response whose body
    is not JSON, the method raises a decode error, [JSONDecodeError] for a
    text that is not JSON and [UnicodeDecodeError] for bytes that are no
    text; and whenever the method returns normally, the answer was a 2xx
    response and the result is exactly the JSON value of its body, whatever
    its shape. *)
Theorem high_level_decodes_without_shape_check :
  forall (h : HighLevel) (account_id : string) (st : State),
    let x := exchange st
               (mkRequest GET
                  match h with
                  | tariff => "/api/v1/documents/tariff-document"
                  | contract_ => "/api/v1/documents/contract-document"
                  end
                  (Some [("accountId", PStr account_id)]) None accept_json) in
    issued (high_level h account_id) st = [x]
    /\ (forall resp text,
        gateway st (wire st ++ [x]) = Answered resp ->
        is_success resp = true -> content resp = NotJson text ->
        fst (high_level h account_id st) = Raise (JSONDecodeError text))
    /\ (forall resp bytes,
        gateway st (wire st ++ [x]) = Answered resp ->
        is_success resp = true -> content resp = Undecodable bytes ->
        fst (high_level h account_id st) = Raise (UnicodeDecodeError bytes))
    /\ (forall v,
        fst (high_level h account_id st) = Return v ->
        exists resp,
          gateway st (wire st ++ [x]) = Answered resp
          /\ is_success resp = true /\ content resp = Json v).
Proof.
  intros h a st x.
  pose proof (high_level_exchange h a st) as E. cbv zeta in E. fold x in E.
  split; [eapply issued_one; exact E|].
  rewrite E. cbn [fst]. split; [|split].
  - intros resp text -> Hs Hc. cbn [decoded]. rewrite Hs, Hc. reflexivity.
  - intros resp bytes -> Hs Hc. cbn [decoded]. rewrite Hs, Hc. reflexivity.
  - intros v Hv. destruct (gateway st (wire st ++ [x])) as [resp|why|why];
      cbn [decoded] in Hv; [|discriminate|discriminate].
    exists resp. split; [reflexivity|].
    destruct (is_success resp); [|discriminate].
    destruct (content resp); [|discriminate|discriminate].
    split; congruence.
Qed.

(** C4, as stated, fails: a 200 whose body is the JSON object with no
    members is returned as it is, and it is not a
    [GetTariffDocumentResponseDict]. *)
Lemma high_level_returns_unshaped_body :
  let st := fresh localhost (always (Answered ok_empty_object)) in
  is_success ok_empty_object = true
  /\ fst (Documents.get_tariff_document "A1" st) = Return (VDict [])
  /\ Documents.is_GetTariffDocumentResponseDict (VDict []) = false
  /\ fst (Documents.get_contract_document "A1" st) = Return (VDict [])
  /\ Documents.is_GetContractDocumentResponseDict (VDict []) = false.
Proof. repeat split. Qed.

Lemma high_level_decodes_without_shape_check_witness :
  fst (Documents.get_tariff_document "A1" (fresh localhost (always (Answered ok_html))))
  = Raise (JSONDecodeError "<html></html>")
  /\ fst (Documents.get_contract_document "A1"
            (fresh localhost (always (Answered ok_bytes))))
     = Raise (UnicodeDecodeError (String "255"%char EmptyString)).
Proof.
  split.
  - apply (proj1 (proj2 (high_level_decodes_without_shape_check tariff "A1"
                           (fresh localhost (always (Answered ok_html))))) ok_html);
      reflexivity.
  - apply (proj1 (proj2 (proj2 (high_level_decodes_without_shape_check contract_ "A1"
                                  (fresh localhost (always (Answered ok_bytes))))))
             ok_bytes);
      reflexivity.
Defined.

(** ** Request bodies *)








(** ** Query parameters *)

Lemma QueryParams_keys (q : query) : map fst (QueryParams q) = map fst q.
Proof. unfold QueryParams. rewrite map_map. reflexivity. Qed.

Lemma QueryParams_In (k : string) (v : primitive) (q : query) :
  In (k, v) q -> In (k, primitive_value_to_str v) (QueryParams q).
Proof.
  intros H. unfold QueryParams.
  apply (in_map (fun kv : string * primitive =>
                   (fst kv, primitive_value_to_str (snd kv)))) in H.
  exact H.
Qed.

(** C5, as the code has it.  Each read-with-filter method hands the query
    record to httpx as it is: one GET whose query pairs are the entries of
    the record, in order, a string under its own text and an integer under
    its decimal text.  A key that the record does not have is not in the
    query; a key that the record holds with the value [None] is in the
    query, with an empty value. *)
Theorem filter_query_is_the_record :
  forall (e : FilterEndpoint) (q : query) (st : State),
    exists x,
      issued (filter_api e q) st = [x]
      /\ method (request x) = GET
      /\ query_items (request x) = QueryParams q
      /\ map fst (query_items (request x)) = map fst q
      /\ (forall k s, In (k, PStr s) q -> In (k, s) (query_items (request x)))
      /\ (forall k z, In (k, PInt z) q ->
                      In (k, str_of_int z) (query_items (request x)))
      /\ (forall k, ~ In k (map fst q) ->
                    ~ In k (map fst (query_items (request x))))
      /\ (forall k, In (k, PNone) q -> In (k, "") (query_items (request x))).
Proof.
  intros e q st.
  exists (exchange st (mkRequest GET
                         match e with
                         | get_operations => "/api/v1/operations"
                         | get_operations_summary =>
                             "/api/v1/operations/operations-summary"
                         end (Some q) None accept_json)).
  split; [destruct e; eapply issued_one; apply round_trip_run|].
  simpl. unfold query_items. simpl.
  split; [reflexivity|]. split; [reflexivity|].
  rewrite QueryParams_keys.
  split; [reflexivity|].
  split; [intros k s H; apply (QueryParams_In k (PStr s)), H|].
  split; [intros k z H; apply (QueryParams_In k (PInt z)), H|].
  split; [tauto|].
  intros k H. apply (QueryParams_In k PNone), H.
Qed.

Lemma filter_query_is_the_record_witness :
  exists x,
    issued (Operations.get_operations_api operations_query_no_limit)
      (fresh localhost (always (Answered not_found))) = [x]
    /\ In ("accountId", "A1") (query_items (request x))
    /\ ~ In "offset" (map fst (query_items (request x))).
Proof.
  destruct (filter_query_is_the_record get_operations operations_query_no_limit
              (fresh localhost (always (Answered not_found))))
    as (x & Hi & _ & _ & _ & Hs & _ & Habs & _).
  exists x. split; [exact Hi|]. split.
  - apply Hs. left. reflexivity.
  - apply Habs. simpl. intros [H|[H|[]]]; discriminate H.
Defined.

(** C5, as stated, fails: an operations query whose optional [limit] is
    absent ([None]) goes out with [limit] in the query, under an empty
    value. *)
Lemma filter_query_keeps_none_fields :
  let st := fresh localhost (always (Answered not_found)) in
  given "limit" operations_query_no_limit = false
  /\ map (fun x => query_items (request x))
       (issued (Operations.get_operations_api operations_query_no_limit) st)
     = [[("accountId", "A1"); ("limit", "")]]
  /\ given "groupBy" summary_query_no_group = false
  /\ map (fun x => query_items (request x))
       (issued (Operations.get_operations_summary_api summary_query_no_group) st)
     = [[("accountId", "A1"); ("groupBy", "")]].
Proof. repeat split. Qed.

Example get_operations_api_limit_20 :
  map (fun x => query_items (request x))
    (issued (Operations.get_operations_api [("accountId", PStr "A1"); ("limit", PInt 20)])
       (fresh localhost (always (Answered not_found))))
  = [[("accountId", "A1"); ("limit", "20")]].
Proof. reflexivity. Qed.

(** * Further properties of the client layer *)

(** ** From the constructor to the wire *)

(** X1. Whatever a handle is constructed with, every call made on it goes
    through an [httpx.Client] with the handle's normalized base URL and its
    timeout: the base URL given, less its trailing slashes, and the timeout
    given, or 10.0 when none is. *)
Theorem constructed_configuration_reaches_httpx :
  forall (base_url_arg : string) (timeout_arg : option float)
         (g : list Exchange -> Reply),
    let st := fresh (HTTPClient_init base_url_arg timeout_arg) g in
    let expected :=
      [mkClient (rstrip "/" base_url_arg) (default 10%float timeout_arg)] in
    (forall c, map via (issued (low_level c) st) = expected)
    /\ (forall h account_id, map via (issued (high_level h account_id) st) = expected).
Proof.
  intros b t g st expected. split.
  - intros c. destruct (low_level_run c) as (r & E).
    erewrite issued_one by apply E. reflexivity.
  - intros h a. destruct (high_level_run h a) as (r & E & _).
    erewrite issued_one by apply E. reflexivity.
Qed.

(** ** High-level methods over low-level ones *)

(** X2. A high-level document method does on the network exactly what its
    low-level method does, and its outcome depends on that method's outcome
    alone: an exception of the low-level method passes through, a response
    is checked for its status and decoded. *)
Theorem high_level_is_low_level_then_decode :
  forall (account_id : string) (st : State),
    let over (low : M Response) : Outcome value * State :=
      (match fst (low st) with
       | Return resp => decoded (Answered resp)
       | Raise e => Raise e
       end, snd (low st)) in
    Documents.get_tariff_document account_id st
    = over (Documents.get_tariff_document_api account_id)
    /\ Documents.get_contract_document account_id st
       = over (Documents.get_contract_document_api account_id).
Proof.
  intros a st over. subst over.
  split;
    [ unfold Documents.get_tariff_document
    | unfold Documents.get_contract_document ];
    unfold bind at 1;
    match goal with
    | |- context [match ?m st with _ => _ end] =>
        destruct (m st) as [[resp|e] st']
    end; simpl; [apply check_and_decode_run | reflexivity
                 | apply check_and_decode_run | reflexivity].
Qed.



(** ** Many calls on one handle *)



(** ** Endpoints *)

Lemma operation_paths (operation_id : string) (st : State) :
  issued (Operations.get_operation_api operation_id) st
  = [exchange st (mkRequest GET ("/api/v1/operations/" ++ operation_id)%string
                    None None accept_json)]
  /\ issued (Operations.get_operation_receipt_api operation_id) st
     = [exchange st
          (mkRequest GET
             ("/api/v1/operations/operation-receipt/" ++ operation_id)%string
             None None accept_json)].
Proof.
  split; eapply issued_one; apply round_trip_run.
Qed.

(** The exchanges of a high-level method are those of its low-level
    method. *)
Lemma high_level_issues_what_low_level_does (a : string) (st : State) :
  issued (Documents.get_tariff_document a) st
  = issued (Documents.get_tariff_document_api a) st
  /\ issued (Documents.get_contract_document a) st
     = issued (Documents.get_contract_document_api a) st.
Proof.
  split;
    [ unfold Documents.get_tariff_document
    | unfold Documents.get_contract_document ];
    unfold issued, bind at 1;
    match goal with
    | |- context [match ?m st with _ => _ end] =>
        destruct (m st) as [[resp|e] st']
    end; simpl; try rewrite check_and_decode_run; reflexivity.
Qed.

(** The path a computation sends its exchanges to. *)
Lemma write_api_path (e : WriteEndpoint) (d : dict) (st : State) :
  map (fun x => url (request x)) (issued (write_api e d) st)
  = [match e with
     | issue_virtual_card => "/api/v1/cards/issue-virtual-card"
     | issue_physical_card => "/api/v1/cards/issue-physical-card"
     | make_fee_operation => "/api/v1/operations/make-fee-operation"
     | make_top_up_operation => "/api/v1/operations/make-top-up-operation"
     | make_cashback_operation => "/api/v1/operations/make-cashback-operation"
     | make_transfer_operation => "/api/v1/operations/make-transfer-operation"
     | make_purchase_operation => "/api/v1/operations/make-purchase-operation"
     | make_bill_payment_operation => "/api/v1/operations/make-bill-payment-operation"
     | make_cash_withdrawal_operation =>
         "/api/v1/operations/make-cash-withdrawal-operation"
     end].
Proof.
  destruct e; (erewrite issued_one by apply round_trip_run); reflexivity.
Qed.

(** X5. No two write methods post to the same path, whatever the requests
    and the states; the two document methods read different paths, and so
    do the two read-with-filter methods. *)
Theorem endpoints_have_their_own_paths :
  (forall e1 e2 d1 d2 st1 st2,
      map (fun x => url (request x)) (issued (write_api e1 d1) st1)
      = map (fun x => url (request x)) (issued (write_api e2 d2) st2) ->
      e1 = e2)
  /\ (forall h1 h2 a1 a2 st1 st2,
      map (fun x => url (request x)) (issued (high_level h1 a1) st1)
      = map (fun x => url (request x)) (issued (high_level h2 a2) st2) ->
      h1 = h2)
  /\ (forall e1 e2 q1 q2 st1 st2,
      map (fun x => url (request x)) (issued (filter_api e1 q1) st1)
      = map (fun x => url (request x)) (issued (filter_api e2 q2) st2) ->
      e1 = e2).
Proof.
  split; [|split].
  - intros e1 e2 d1 d2 st1 st2. rewrite !write_api_path.
    destruct e1, e2; intros H; solve [reflexivity | discriminate H].
  - intros h1 h2 a1 a2 st1 st2.
    assert (Hp : forall h a st,
               map (fun x => url (request x)) (issued (high_level h a) st)
               = [match h with
                  | tariff => "/api/v1/documents/tariff-document"
                  | contract_ => "/api/v1/documents/contract-document"
                  end]).
    { intros h a st. destruct h; simpl;
        [ rewrite (proj1 (high_level_issues_what_low_level_does a st))
        | rewrite (proj2 (high_level_issues_what_low_level_does a st)) ];
        (erewrite issued_one by apply round_trip_run); reflexivity. }
    rewrite !Hp. destruct h1, h2; intros H; solve [reflexivity | discriminate H].
  - intros e1 e2 q1 q2 st1 st2.
    destruct e1, e2; simpl;
      (erewrite !issued_one by apply round_trip_run); simpl;
      intros H; solve [reflexivity | discriminate H].
Qed.

Lemma endpoints_have_their_own_paths_witness :
  map (fun x => url (request x))
    (issued (write_api make_fee_operation [])
       (fresh localhost (always (Answered not_found))))
  = map (fun x => url (request x))
      (issued (write_api make_fee_operation [("status", VStr "DONE")])
         (fresh localhost (always (Failed "timeout"))))
  /\ make_fee_operation = make_fee_operation.
Proof.
  split; [reflexivity|].
  apply (proj1 endpoints_have_their_own_paths
           make_fee_operation make_fee_operation
           [] [("status", VStr "DONE")]
           (fresh localhost (always (Answered not_found)))
           (fresh localhost (always (Failed "timeout")))).
  reflexivity.
Defined.

(** X6. An operation identifier goes into the path as it is, so an
    identifier can reach into another endpoint: [get_operation_api] with
    ["operation-receipt/"] followed by [id] issues the very exchange that
    [get_operation_receipt_api] issues for [id], and with the identifier
    ["operations-summary"] it reads the path of the summary endpoint. *)
Theorem operation_id_can_name_another_endpoint :
  forall (id : string) (q : query) (st : State),
    issued (Operations.get_operation_api ("operation-receipt/" ++ id)%string) st
    = issued (Operations.get_operation_receipt_api id) st
    /\ map (fun x => (method (request x), url (request x)))
         (issued (Operations.get_operation_api "operations-summary") st)
       = map (fun x => (method (request x), url (request x)))
           (issued (Operations.get_operations_summary_api q) st).
Proof.
  intros id q st. split.
  - destruct (operation_paths ("operation-receipt/" ++ id)%string st)
      as [-> _].
    destruct (operation_paths id st) as [_ ->].
    reflexivity.
  - destruct (operation_paths "operations-summary" st) as [-> _].
    unfold Operations.get_operations_summary_api, Client_get.
    erewrite issued_one by apply round_trip_run. reflexivity.
Qed.

(** X7. A read method never sends a body and a write method never sends a
    query; the document methods, low-level and high-level, send exactly one
    query pair, [accountId] with the account identifier as it is given. *)
Theorem bodies_and_queries_kept_apart :
  forall st : State,
    (forall c, Forall (fun x => json (request x) = None
                                /\ body_members (request x) = [])
                 (issued (read_api c) st))
    /\ (forall e d, Forall (fun x => params (request x) = None
                                     /\ query_items (request x) = [])
                      (issued (write_api e d) st))
    /\ (forall account_id,
          map (fun x => query_items (request x))
            (issued (Documents.get_tariff_document_api account_id) st)
          = [[("accountId", account_id)]]
          /\ map (fun x => query_items (request x))
               (issued (Documents.get_contract_document_api account_id) st)
             = [[("accountId", account_id)]])
    /\ (forall h account_id,
          map (fun x => query_items (request x))
            (issued (high_level h account_id) st)
          = [[("accountId", account_id)]]).
Proof.
  intros st. split; [|split; [|split]].
  - intros c. destruct (read_api_run c) as (r & E & _ & Hj & _).
    erewrite issued_one by apply E.
    constructor; [|constructor]. simpl. unfold body_members.
    rewrite Hj. split; reflexivity.
  - intros e d. destruct (write_api_run e d) as (r & E & _ & Hp & _).
    erewrite issued_one by apply E.
    constructor; [|constructor]. simpl. unfold query_items.
    rewrite Hp. split; reflexivity.
  - intros a. split; (erewrite issued_one by apply round_trip_run); reflexivity.
  - intros h a. destruct (high_level_run h a) as (r & E & _ & _ & Hp).
    erewrite issued_one by apply E. simpl. unfold query_items.
    rewrite Hp. reflexivity.
Qed.

(** ** Base URLs that need no normalizing *)

Lemma rstrip_fixpoint (c : ascii) (s : string) :
  ends_with c s = false -> rstrip c s = s.
Proof.
  induction s as [|a s IH]; simpl; [reflexivity|].
  destruct s as [|b s'].
  - simpl. intros ->. reflexivity.
  - intros H. rewrite (IH H). reflexivity.
Qed.

(** X8. A base URL that does not end with a slash is stored as it is, and
    normalizing is idempotent: a handle built again from the attributes of
    a handle is that handle. *)
Theorem base_url_normal_form :
  forall (base_url_arg : string) (timeout_arg : option float),
    let c := HTTPClient_init base_url_arg timeout_arg in
    (ends_with "/" base_url_arg = false -> base_url c = base_url_arg)
    /\ HTTPClient_init (base_url c) (Some (timeout c)) = c.
Proof.
  intros b t c. subst c. split.
  - intros H. simpl. apply rstrip_fixpoint, H.
  - unfold HTTPClient_init. simpl.
    rewrite (rstrip_fixpoint _ _ (rstrip_not_ends_with "/" b)). reflexivity.
Qed.

Lemma base_url_normal_form_witness :
  base_url (HTTPClient_init "http://localhost:8080/api/v1" None)
  = "http://localhost:8080/api/v1".
Proof.
  apply (proj1 (base_url_normal_form "http://localhost:8080/api/v1" None)).
  reflexivity.
Defined.

(** * Properties of the scripts *)

(** ** Running script steps *)

Lemma gateway_after (x : Exchange) (st : State) :
  gateway (after x st) = gateway st.
Proof. reflexivity. Qed.

(** What a script makes of what comes of a plain [httpx] call. *)
Lemma lift_request_run (c : Client) (r : Request) (p : Process) :
  lift (Client_request c r) p
  = (received (gateway (net p) (wire (net p) ++ [mkExchange c r])),
     mkProcess (after (mkExchange c r) (net p)) (console p)).
Proof.
  unfold lift. rewrite Client_request_run.
  destruct (gateway (net p) _); reflexivity.
Qed.

Lemma lift_raise_for_status_run (resp : Response) (st : State) (out : list Line) :
  lift (raise_for_status resp) (mkProcess st out)
  = (if is_success resp then Done resp
     else Thrown (Httpx (HTTPStatusError resp)),
     mkProcess st out).
Proof.
  unfold lift, raise_for_status, ret, raise. simpl.
  destruct (is_success resp); reflexivity.
Qed.

Lemma lift_Response_json_run (resp : Response) (st : State) (out : list Line) :
  lift (Response_json resp) (mkProcess st out)
  = (match content resp with
     | Json v => Done v
     | NotJson text => Thrown (Httpx (JSONDecodeError text))
     | Undecodable bytes => Thrown (Httpx (UnicodeDecodeError bytes))
     end,
     mkProcess st out).
Proof.
  unfold lift, Response_json, ret, raise. simpl.
  destruct (content resp); reflexivity.
Qed.

Lemma check_and_decode_script (resp : Response) (st : State) (out : list Line)
    {A : Type} (k : value -> Script A) :
  (let+ _ := lift (raise_for_status resp) in
   let+ v := lift (Response_json resp) in
   k v) (mkProcess st out)
  = match checked resp with
    | Done v => k v (mkProcess st out)
    | Thrown e => (Thrown e, mkProcess st out)
    end.
Proof.
  unfold sbind at 1. rewrite lift_raise_for_status_run. unfold checked.
  destruct (is_success resp); [|reflexivity].
  unfold sbind at 1. rewrite lift_Response_json_run.
  destruct (content resp); reflexivity.
Qed.

Lemma post_then {A : Type} (url : string) (json : dict)
    (k : Response -> Script A) (p : Process) :
  sbind (httpx_post url json 10%float) k p
  = match received (gateway (net p) (wire (net p) ++ [posted url json])) with
    | Done resp =>
        k resp (mkProcess (after (posted url json) (net p)) (console p))
    | Thrown e =>
        (Thrown e, mkProcess (after (posted url json) (net p)) (console p))
    end.
Proof.
  unfold sbind, httpx_post. rewrite lift_request_run. unfold posted.
  destruct (received _); reflexivity.
Qed.

Lemma get_then {A : Type} (url : string) (k : Response -> Script A) (p : Process) :
  sbind (httpx_get url 10%float) k p
  = match received (gateway (net p) (wire (net p) ++ [got url])) with
    | Done resp => k resp (mkProcess (after (got url) (net p)) (console p))
    | Thrown e => (Thrown e, mkProcess (after (got url) (net p)) (console p))
    end.
Proof.
  unfold sbind, httpx_get. rewrite lift_request_run. unfold got.
  destruct (received _); reflexivity.
Qed.

Lemma print_then {A : Type} (l : Line) (k : unit -> Script A) (p : Process) :
  sbind (print l) k p = k tt (mkProcess (net p) (console p ++ [l])).
Proof. reflexivity. Qed.

Lemma subscr_then {A : Type} (v : value) (s : subscript) (k : value -> Script A)
    (p : Process) :
  sbind (subscr v s) k p
  = match getitem v s with
    | Done x => k x p
    | Thrown e => (Thrown e, p)
    end.
Proof. unfold sbind, subscr. destruct (getitem v s); reflexivity. Qed.


Lemma getitem_is_Exception (v : value) (s : subscript) (e : Exception) :
  getitem v s = Thrown e -> is_Exception e = true.
Proof.
  unfold getitem. intros H.
  destruct v, s; simpl in H;
    repeat match type of H with
           | match ?c with _ => _ end = _ => destruct c
           end;
    inversion H; reflexivity.
Qed.

Lemma checked_is_Exception (resp : Response) (e : Exception) :
  checked resp = Thrown e -> is_Exception e = true.
Proof.
  unfold checked. destruct (is_success resp); [destruct (content resp)|];
    intros H; inversion H; reflexivity.
Qed.

(** ** [httpx_open_deposit_account.py] *)

Lemma sent_one {A : Type} (s : Script A) (p : Process) (r : Result A)
    (x : Exchange) (out : list Line) :
  s p = (r, mkProcess (after x (net p)) out) -> sent s p = [x].
Proof.
  intros E. unfold sent. rewrite E. simpl. apply drop_app_length.
Qed.

Lemma OpenDepositAccount_create_user_run (now : Z) (p : Process) :
  let x := posted "http://localhost:8003/api/v1/users"
             [("email", VStr ("user_" ++ str_of_int now ++ "@example.com")%string);
              ("firstName", VStr "Test");
              ("lastName", VStr "User");
              ("phone", VStr "+79991234567")] in
  OpenDepositAccount.create_user now p
  = (match received (gateway (net p) (wire (net p) ++ [x])) with
     | Done resp =>
         match checked resp with
         | Done v => getitem v (Key "id")
         | Thrown e => Thrown e
         end
     | Thrown e => Thrown e
     end,
     mkProcess (after x (net p)) (console p)).
Proof.
  intros x. unfold OpenDepositAccount.create_user.
  rewrite post_then.
  change (posted (OpenDepositAccount.BASE_URL ++ "/api/v1/users")%string _) with x.
  destruct (received (gateway (net p) (wire (net p) ++ [x]))) as [resp|e];
    [|reflexivity].
  rewrite check_and_decode_script.
  destruct (checked resp); reflexivity.
Qed.

(** X9. [create_user] of the deposit script posts the new user once, with
    the time in the e-mail address, and prints nothing.  It returns a value
    exactly when the answer is a 2xx response whose body is a JSON object
    holding that value under [id]; a 2xx JSON object without [id] raises
    [KeyError], any other 2xx JSON value raises [TypeError], and a non-2xx
    answer raises the status error without the body being looked at. *)
Theorem deposit_script_create_user :
  forall (now : Z) (p : Process),
    let x := posted "http://localhost:8003/api/v1/users"
               [("email", VStr ("user_" ++ str_of_int now ++ "@example.com")%string);
                ("firstName", VStr "Test");
                ("lastName", VStr "User");
                ("phone", VStr "+79991234567")] in
    let result := fst (OpenDepositAccount.create_user now p) in
    let answer := gateway (net p) (wire (net p) ++ [x]) in
    sent (OpenDepositAccount.create_user now) p = [x]
    /\ printed (OpenDepositAccount.create_user now) p = []
    /\ (forall v, result = Done v <->
                  exists resp d, answer = Answered resp /\ is_success resp = true
                                 /\ content resp = Json (VDict d)
                                 /\ dict_get "id" d = Some v)
    /\ (forall resp d, answer = Answered resp -> is_success resp = true ->
                       content resp = Json (VDict d) -> dict_get "id" d = None ->
                       result = Thrown (KeyError (Key "id")))
    /\ (forall resp v, answer = Answered resp -> is_success resp = true ->
                       content resp = Json v -> (forall d, v <> VDict d) ->
                       result = Thrown TypeError)
    /\ (forall resp, answer = Answered resp -> is_success resp = false ->
                     result = Thrown (Httpx (HTTPStatusError resp))).
Proof.
  intros now p x result answer. subst result answer.
  pose proof (OpenDepositAccount_create_user_run now p) as E. fold x in E.
  cbv zeta in E.
  split; [eapply sent_one; exact E|].
  split; [unfold printed; rewrite E; simpl; apply drop_all|].
  rewrite E. cbn [fst]. clear E.
  split; [|split; [|split]].
  - intros v. split.
    + destruct (gateway (net p) _) as [resp|why|why]; cbn [received];
        [|discriminate|discriminate].
      unfold checked. destruct (is_success resp) eqn:Hs; [|discriminate].
      destruct (content resp) as [body|text|bytes] eqn:Hc;
        [|discriminate|discriminate].
      destruct body; simpl; try discriminate.
      destruct (dict_get "id" entries) eqn:Hg; [|discriminate].
      intros [= ->]. eauto 10.
    + intros (resp & d & -> & Hs & Hc & Hg). cbn [received].
      unfold checked. rewrite Hs, Hc. simpl. rewrite Hg. reflexivity.
  - intros resp d -> Hs Hc Hg. cbn [received].
    unfold checked. rewrite Hs, Hc. simpl.
    rewrite Hg. reflexivity.
  - intros resp v -> Hs Hc Hv. cbn [received]. unfold checked. rewrite Hs, Hc.
    destruct v; try reflexivity. exfalso. eapply Hv. reflexivity.
  - intros resp -> Hs. cbn [received]. unfold checked. rewrite Hs. reflexivity.
Qed.










Lemma deposit_script_create_user_witness :
  fst (OpenDepositAccount.create_user 1700000000
         (start (always (Answered ok_empty_object))))
  = Thrown (KeyError (Key "id")).
Proof.
  destruct (deposit_script_create_user 1700000000
              (start (always (Answered ok_empty_object))))
    as (_ & _ & _ & H & _).
  apply (H ok_empty_object []); reflexivity.
Defined.

(** ** [httpx_get_operation_receipt.py] *)

(** The state a script is in names the network it started with. *)
Ltac script_norm E :=
  cbn [net console after wire network self received] in E;
  rewrite ?gateway_after in E;
  repeat match type of E with
         | context [gateway (mkState ?s ?w (network ?st))] =>
             change (gateway (mkState s w (network st))) with (gateway st) in E
         end.

(** One step of symbolic execution of a script, in a hypothesis. *)
Ltac script_step E :=
  first
    [ rewrite post_then in E
    | rewrite get_then in E
    | rewrite check_and_decode_script in E
    | rewrite subscr_then in E
    | rewrite print_then in E ];
  script_norm E.

Ltac script_case E :=
  match type of E with
  | context [received (gateway ?g ?l)] =>
      let H := fresh "Hreply" in
      destruct (gateway g l) eqn:H; cbn [received] in E
  | context [match checked ?r with _ => _ end] =>
      let H := fresh "Hchecked" in destruct (checked r) eqn:H
  | context [match getitem ?v ?s with _ => _ end] =>
      let H := fresh "Hitem" in destruct (getitem v s) eqn:H
  end.

Ltac script_run E := repeat (first [script_step E | script_case E]).

Lemma sent_from_wire {A : Type} (s : Script A) (p : Process) (r : Result A)
    (st : State) (out : list Line) (xs : list Exchange) :
  s p = (r, mkProcess st out) -> wire st = wire (net p) ++ xs -> sent s p = xs.
Proof.
  intros E Hw. unfold sent. rewrite E. simpl. rewrite Hw. apply drop_app_length.
Qed.



(** X12. The receipt script sends its requests in one fixed order and
    stops at the first step that fails: what it sends is a beginning, of at
    least one exchange, of the sequence user, credit-card account, purchase,
    receipt of some operation; it sends all four when it ends normally; and
    each one goes through a client of its own with a timeout of 10 seconds
    and no base URL. *)
Theorem receipt_script_steps_in_order :
  forall (repr_ : value -> string) (now : Z) (p : Process),
    let run := GetOperationReceipt.run_workflow repr_ now in
    exists operation_text,
      map (fun x => (method (request x), url (request x))) (sent run p)
      `prefix_of`
      [(POST, "http://localhost:8003/api/v1/users");
       (POST, "http://localhost:8003/api/v1/accounts/open-credit-card-account");
       (POST, "http://localhost:8003/api/v1/operations/make-purchase-operation");
       (GET, ("http://localhost:8003/api/v1/operations/operation-receipt/"
              ++ operation_text)%string)]
      /\ (1 <= length (sent run p))%nat
      /\ (fst (run p) = Done tt -> length (sent run p) = 4%nat)
      /\ Forall (fun x => via x = mkClient "" 10%float) (sent run p).
Proof.
  intros repr_ now p run. subst run. unfold sent.
  destruct (GetOperationReceipt.run_workflow repr_ now p) as [res p'] eqn:E.
  unfold GetOperationReceipt.run_workflow in E.
  script_run E.
  all: unfold print in E; cbn [net console] in E.
  all: apply pair_equal_spec in E; destruct E as [<- <-].
  all: cbn [fst snd net wire after]; rewrite <- ?app_assoc;
       rewrite drop_app_length; cbn [app map length request via method url posted got].
  all: first
         [ solve [ exists ""%string;
                   split; [eexists; reflexivity|];
                   split; [lia|];
                   split; [discriminate|];
                   repeat constructor ]
         | solve [ eexists;
                   split; [eexists; reflexivity|];
                   split; [lia|];
                   split; [first [reflexivity | discriminate]|];
                   repeat constructor ] ].
Qed.



(** X14. When the answer to the credit-card account request is a 2xx JSON
    object with an account identifier but an empty list of cards, the
    receipt script raises [IndexError]; when it has no [cards] at all, it
    raises [KeyError].  Either way it stops after its second exchange: no
    purchase is made. *)
Theorem receipt_script_without_cards :
  forall (repr_ : value -> string) (now : Z) (p : Process)
         (r1 r2 : Response) (user_json user_id account account_id : value)
         (d : dict),
    let run := GetOperationReceipt.run_workflow repr_ now in
    let x1 := posted "http://localhost:8003/api/v1/users"
                [("email", VStr ("user_" ++ str_of_int now ++ "@bank.com")%string);
                 ("firstName", VStr "Ivan"); ("lastName", VStr "Petrov")] in
    let x2 := posted "http://localhost:8003/api/v1/accounts/open-credit-card-account"
                [("userId", user_id); ("creditLimit", VInt 50000);
                 ("currency", VStr "RUB")] in
    gateway (net p) (wire (net p) ++ [x1]) = Answered r1 ->
    checked r1 = Done user_json ->
    getitem user_json (Key "id") = Done user_id ->
    gateway (net p) (wire (net p) ++ [x1; x2]) = Answered r2 ->
    checked r2 = Done (VDict d) ->
    dict_get "account" d = Some account ->
    getitem account (Key "id") = Done account_id ->
    (dict_get "cards" d = Some (VList []) ->
     fst (run p) = Thrown IndexError /\ sent run p = [x1; x2])
    /\ (dict_get "cards" d = None ->
        fst (run p) = Thrown (KeyError (Key "cards")) /\ sent run p = [x1; x2]).
Proof.
  intros repr_ now p r1 r2 user_json user_id account account_id d run x1 x2
    H1 C1 I1 H2 C2 I2 I3.
  subst run. unfold sent.
  destruct (GetOperationReceipt.run_workflow repr_ now p) as [res p'] eqn:E.
  unfold GetOperationReceipt.run_workflow in E.
  rewrite post_then in E. script_norm E.
  match type of E with
  | context [wire (net p) ++ [?y]] => change y with x1 in E
  end.
  rewrite H1 in E. cbn [received] in E.
  rewrite check_and_decode_script, C1 in E.
  rewrite subscr_then, I1 in E. rewrite print_then in E.
  rewrite post_then in E. script_norm E.
  rewrite <- app_assoc in E. cbn [app] in E.
  match type of E with
  | context [wire (net p) ++ [x1; ?y]] => change y with x2 in E
  end.
  rewrite H2 in E. cbn [received] in E.
  rewrite check_and_decode_script, C2 in E.
  rewrite subscr_then in E. cbn [getitem] in E. rewrite I2 in E.
  rewrite subscr_then, I3 in E.
  rewrite subscr_then in E. cbn [getitem] in E.
  split; intros Hc; rewrite Hc in E;
    [rewrite subscr_then in E; cbn in E|];
    apply pair_equal_spec in E; destruct E as [<- <-];
    (split; [reflexivity|]);
    cbn [snd net wire after]; rewrite <- !app_assoc; apply drop_app_length.
Qed.

Lemma receipt_script_without_cards_witness :
  fst (GetOperationReceipt.run_workflow (fun _ => ""%string) 1700000000
         (start (scripted [Answered created_user_flat;
                           Answered credit_account_without_cards])))
  = Thrown IndexError.
Proof.
  apply (proj1 (receipt_script_without_cards (fun _ => ""%string) 1700000000
                  (start (scripted [Answered created_user_flat;
                                    Answered credit_account_without_cards]))
                  created_user_flat credit_account_without_cards
                  (VDict [("id", VStr "U1"); ("email", VStr "u@example.com")])
                  (VStr "U1") (VDict [("id", VStr "A1")]) (VStr "A1")
                  [("account", VDict [("id", VStr "A1")]); ("cards", VList [])]
                  eq_refl eq_refl eq_refl eq_refl eq_refl eq_refl eq_refl));
    reflexivity.
Defined.



(** What [run_workflow] raises is an [Exception], and what it prints comes
    after what was printed before. *)
Lemma run_workflow_frame (repr_ : value -> string) (now : Z) (p : Process) :
  (forall e, fst (GetOperationReceipt.run_workflow repr_ now p) = Thrown e ->
             is_Exception e = true)
  /\ exists out,
      console (snd (GetOperationReceipt.run_workflow repr_ now p)) = console p ++ out.
Proof.
  destruct (GetOperationReceipt.run_workflow repr_ now p) as [res p'] eqn:E.
  unfold GetOperationReceipt.run_workflow in E.
  script_run E.
  all: unfold print in E; cbn [net console] in E.
  all: apply pair_equal_spec in E; destruct E as [<- <-].
  all: cbn [fst snd console]; rewrite <- ?app_assoc.
  all: split; [|eexists; try reflexivity; symmetry; apply app_nil_r].
  all: intros exc He; inversion He; subst; clear He.
  all: try reflexivity.
  all: first [ eapply getitem_is_Exception; eassumption
             | eapply checked_is_Exception; eassumption ].
Qed.

(** X16. Run as a program, the receipt script never ends with an
    exception: it sends what [run_workflow] sends, prints what it prints,
    and for an exception that [run_workflow] raises it prints one more
    line, the error line. *)
Theorem receipt_script_main_guard :
  forall (repr_ : value -> string) (now : Z) (p : Process),
    let run := GetOperationReceipt.run_workflow repr_ now in
    let guarded := GetOperationReceipt.dunder_main repr_ now in
    fst (guarded p) = Done tt
    /\ sent guarded p = sent run p
    /\ printed guarded p
       = printed run p
         ++ match fst (run p) with
            | Done _ => []
            | Thrown e => [Say "Error: {e}" [SException e]]
            end.
Proof.
  intros repr_ now p run guarded. subst run guarded.
  destruct (run_workflow_frame repr_ now p) as (Hexc & out & Hout).
  unfold GetOperationReceipt.dunder_main, try_except, sent, printed.
  destruct (GetOperationReceipt.run_workflow repr_ now p) as [[[]|e] p1].
  - simpl. rewrite app_nil_r. auto.
  - simpl in *. rewrite (Hexc e eq_refl). simpl.
    split; [reflexivity|]. split; [reflexivity|].
    rewrite Hout, <- app_assoc, !drop_app_length. reflexivity.
Qed.

(** ** The document helpers of [api_client_get_documents.py] *)

Lemma call_then {A B : Type} (client : HTTPClient) (m : M A)
    (k : A -> Script B) (p : Process) :
  let st := mkState client (wire (net p)) (network (net p)) in
  sbind (call client m) k p
  = let p' :=
      mkProcess (mkState (self (net p)) (wire (snd (m st))) (network (snd (m st))))
        (console p
         ++ httpx_log (gateway st) (wire st)
              (drop (length (wire st)) (wire (snd (m st))))) in
    match fst (m st) with
    | Return a => k a p'
    | Raise e => (Thrown (Httpx e), p')
    end.
Proof.
  intros st. unfold sbind, call. fold st.
  destruct (m st) as [[a|e] st']; reflexivity.
Qed.

(** X17. The script's [get_tariff_document] and [get_contract_document]
    add logging to the client's high-level methods and nothing else: they
    hand httpx what the method hands it, the one GET of the document path,
    return what the method returns after logging the start and the
    document, and when the method raises they log the start and the error
    and raise the same exception again.  Between the two lines of the
    helper come the records httpx itself logs: exactly one when the request
    is answered, whatever the status of the answer, and none when httpx
    refused the request.  (What httpx logs for a request that was sent and
    failed is left open here.) *)
Theorem document_helpers_log_and_reraise :
  forall (client : HTTPClient) (account_id : string) (p : Process),
    let st := mkState client (wire (net p)) (network (net p)) in
    let wraps (helper : Script value) (method_ : M value)
              (path start got failed : string) : Prop :=
      let x := exchange st
                 (mkRequest GET path (Some [("accountId", PStr account_id)])
                    None accept_json) in
      let answer := gateway st (wire st ++ [x]) in
      sent helper p = issued method_ st
      /\ issued method_ st = [x]
      /\ exists httpx_lines,
          match fst (method_ st) with
          | Return document =>
              fst (helper p) = Done document
              /\ printed helper p
                 = [Log INFO start [SValue (VStr account_id)]]
                   ++ httpx_lines
                   ++ [Log INFO got [SValue document]]
          | Raise e =>
              fst (helper p) = Thrown (Httpx e)
              /\ printed helper p
                 = [Log INFO start [SValue (VStr account_id)]]
                   ++ httpx_lines
                   ++ [Log ERROR failed [SException (Httpx e)]]
          end
          /\ (forall resp, answer = Answered resp ->
                           httpx_lines = [httpx_record x resp])
          /\ (forall why, answer = Refused why -> httpx_lines = []) in
    wraps (GetDocuments.get_tariff_document client account_id)
      (Documents.get_tariff_document account_id)
      "/api/v1/documents/tariff-document"
      "Получение документа тарифа для счёта: {account_id}"
      "Документ тарифа получен: {tariff_document}"
      "Ошибка при получении документа тарифа: {e}"
    /\ wraps (GetDocuments.get_contract_document client account_id)
         (Documents.get_contract_document account_id)
         "/api/v1/documents/contract-document"
         "Получение документа контракта для счёта: {account_id}"
         "Документ контракта получен: {contract_document}"
         "Ошибка при получении документа контракта: {e}".
Proof.
  intros client account_id p st wraps. subst wraps. cbv beta zeta.
  pose proof (high_level_exchange tariff account_id st) as Et.
  pose proof (high_level_exchange contract_ account_id st) as Ec.
  cbv zeta in Et, Ec. cbn [high_level] in Et, Ec.
  split;
    [ unfold GetDocuments.get_tariff_document
    | unfold GetDocuments.get_contract_document ];
    unfold try_except, sent, printed, issued;
    rewrite print_then, call_then; cbn [net console]; fold st;
    [ rewrite Et; clear Et Ec | rewrite Ec; clear Et Ec ];
    cbn [fst snd after wire network self];
    rewrite !drop_app_length; cbn [httpx_log];
    match goal with
    | |- context [gateway st (wire st ++ [?x])] =>
        set (answer := gateway st (wire st ++ [x]));
        (split; [|split; [reflexivity|]]);
        [|exists (match answer with
                  | Answered resp => [httpx_record x resp]
                  | _ => []
                  end)]
    end;
    destruct answer as [resp|why|why];
    cbn [decoded];
    try match goal with
        | |- context [is_success ?r] =>
            destruct (is_success r); [destruct (content r)|]
        end;
    try rewrite print_then;
    cbv beta iota delta [is_Exception print sbind sret throw];
    cbn [fst snd net console wire];
    try (rewrite drop_app_length; reflexivity);
    (split; [split; [reflexivity|];
             rewrite <- ?app_assoc; cbn [app]; apply drop_app_length|]);
    (split; intros ? [=]; subst; reflexivity).
Qed.
